(** * psycopg/green.c: cooperation with coroutine libraries

    A shallow embedding of [green.c] and the properties of its
    specification.

    The C functions are written in a state monad over the process state
    that [green.c] can observe: the file-level global [wait_callback], the
    connection object, the Python error indicator and the rest of the
    world (server, sockets, interpreter heap).  The functions that
    [green.c] calls but does not define (libpq, the CPython C API, the
    [pq_*] helpers of psycopg and the Python wait callback itself) are
    parameters of the development: every theorem holds whatever they do
    inside the footprint their C signature gives them.

    Reference counts ([Py_INCREF], [Py_DECREF]) and the freeing of libpq
    results only decide the lifetime of objects and are not embedded. *)

From Stdlib Require Import String List ZArith Bool Lia.
From ExtLib Require Import Structures.Monad Data.Monads.StateMonad.
Import ListNotations.
Import MonadNotation.
Local Open Scope monad_scope.
Local Open Scope string_scope.
Local Open Scope list_scope.
Local Open Scope Z_scope.

Set Implicit Arguments.

(** ** Data *)

(** A [PyObject *] that is not NULL: the [None] singleton or another
    object, known by its identity.  A nullable pointer is an [option]. *)
Inductive PyObject : Type :=
| Py_None
| PyObj (id : positive).

(** The exception classes [green.c] raises itself, and any other class. *)
Inductive exc_class : Type :=
| OperationalError
| ProgrammingError
| PyExc (name : string).

(** The error indicator of the interpreter: the triple that
    [PyErr_Fetch] reads and [PyErr_Restore] writes.  No pending error
    (a NULL type) is [None] at the [option] level. *)
Record PyErr : Type := mkPyErr {
  etype : exc_class;
  evalue : string;
  etb : option PyObject
}.

(** [conn->async_status]: the values named in [green.c]. *)
Inductive async_status_t : Type :=
| ASYNC_DONE
| ASYNC_READ
| ASYNC_WRITE.

(** libpq handles, known by identity. *)
Inductive PGresult : Type := PGres (id : positive).
Inductive PGcancel : Type := PGcan (id : positive).

(** The fields of [connectionObject] that [green.c] reads or writes.
    Modelled from the spec: the header declaring the struct is not part
    of the sources; [closed] stands for the closed/unusable state that
    [conn_close_locked] puts the connection in. *)
Record connectionObject : Type := mkConn {
  async_cursor : option PyObject;
  async_status : async_status_t;
  cancel : PGcancel;
  closed : bool
}.

(** What the execution does, in order: the calls made to collaborators
    and the [Dprintf] debug lines of the source. *)
Inductive event : Type :=
| Dprintf (line : string)
| EvNewRef
| EvSendQuery (command : string)
| EvCallback (cb : PyObject)
| EvGetLastResult
| EvPQcancel (handle : PGcancel)
| EvWarn (message : string)
| EvClose
| EvPQclear (res : PGresult).

(** The part of the world outside [green.c] (server, sockets, heap) has
    type [Env].  A [World] is what C code holding the connection can
    reach. *)
Record World (Env : Type) : Type := mkWorld {
  conn : connectionObject;
  pyerr : option PyErr;
  env : Env
}.

(** The whole state: the global slot of [green.c], the world, and the
    trace of what has been done so far. *)
Record State (Env : Type) : Type := mkState' {
  wait_callback : option PyObject;
  world : World Env;
  trace : list event
}.

(** What [green.c] is compiled and linked against. *)
Class Platform (Env : Type) : Type := {
  (** Whether the build defines the macro [PSYCOPG_EXTENSIONS]. *)
  PSYCOPG_EXTENSIONS : bool;
  (** CPython: the new weak reference, or NULL. *)
  PyWeakref_NewRef : World Env -> option PyObject * World Env;
  (** psycopg, pqpath.c: nonzero when the query was sent. *)
  pq_send_query : string -> World Env -> Z * World Env;
  (** psycopg, pqpath.c: the last result, or NULL. *)
  pq_get_last_result : World Env -> option PGresult * World Env;
  (** libpq: the return code and the content of the error buffer.  It
      receives the cancel handle only. *)
  PQcancel : PGcancel -> Env -> (Z * string) * Env;
  (** CPython: issue a warning; it may raise it as an exception.  The
      warning machinery runs Python code (filters, hooks), which can
      reach the callback slot and the connection as the wait callback
      can. *)
  PyErr_WarnEx :
    string -> option PyObject * World Env ->
    Z * (option PyObject * World Env);
  (** The call of the wait callback on the connection: the returned
      object, or NULL.  It runs Python code, which can also register
      another callback. *)
  PyObject_CallFunctionObjArgs :
    PyObject -> option PyObject * World Env ->
    option PyObject * (option PyObject * World Env)
}.

(** Field updates of the connection object. *)
Definition conn_set_cursor (p : option PyObject) (c : connectionObject)
  : connectionObject :=
  mkConn p (async_status c) (cancel c) (closed c).

Definition conn_set_status (st : async_status_t) (c : connectionObject)
  : connectionObject :=
  mkConn (async_cursor c) st (cancel c) (closed c).

Definition conn_set_closed (c : connectionObject) : connectionObject :=
  mkConn (async_cursor c) (async_status c) (cancel c) true.

(** The two errors that [green.c] raises itself, under the names the
    specification gives them. *)
Definition ConcurrentAsyncQuery : PyErr :=
  mkPyErr ProgrammingError
    "a single async query can be executed on the same connection" None.

Definition CallbackUnavailable : PyErr :=
  mkPyErr OperationalError "wait callback not available" None.

Section Green.

Context {Env : Type} {P : Platform Env}.

Definition M : Type -> Type := state (State Env).

(** *** Primitive actions *)

Definition log (e : event) : M unit :=
  mkState (fun s =>
    (tt, mkState' (wait_callback s) (world s) (trace s ++ [e]))).

Definition read {A} (f : State Env -> A) : M A :=
  mkState (fun s => (f s, s)).

Definition set_wait_callback (cb : option PyObject) : M unit :=
  mkState (fun s => (tt, mkState' cb (world s) (trace s))).

Definition update_world (f : World Env -> World Env) : M unit :=
  mkState (fun s =>
    (tt, mkState' (wait_callback s) (f (world s)) (trace s))).

Definition with_conn (f : connectionObject -> connectionObject)
  (w : World Env) : World Env :=
  mkWorld (f (conn w)) (pyerr w) (env w).

Definition with_pyerr (e : option PyErr) (w : World Env) : World Env :=
  mkWorld (conn w) e (env w).

Definition set_async_cursor (p : option PyObject) : M unit :=
  update_world (with_conn (conn_set_cursor p)).

Definition set_async_status (st : async_status_t) : M unit :=
  update_world (with_conn (conn_set_status st)).

(** A call of C code that sees the world. *)
Definition call_world {A} (e : event)
  (f : World Env -> A * World Env) : M A :=
  log e ;;
  mkState (fun s =>
    let r := f (world s) in
    (fst r, mkState' (wait_callback s) (snd r) (trace s))).

(** The footprint of libpq, which sees neither the connection object
    nor the interpreter. *)
Definition in_env {A} (f : Env -> A * Env) (w : World Env)
  : A * World Env :=
  let r := f (env w) in
  (fst r, mkWorld (conn w) (pyerr w) (snd r)).

(** A call of Python code. *)
Definition call_python {A} (e : event)
  (f : option PyObject * World Env -> A * (option PyObject * World Env))
  : M A :=
  log e ;;
  mkState (fun s =>
    let r := f (wait_callback s, world s) in
    (fst r, mkState' (fst (snd r)) (snd (snd r)) (trace s))).

(** [PyErr_SetString(type, message)] *)
Definition PyErr_SetString (type : exc_class) (message : string) : M unit :=
  update_world (with_pyerr (Some (mkPyErr type message None))).

(** [PyErr_Fetch]: hand the pending error over and clear the indicator. *)
Definition PyErr_Fetch : M (option PyErr) :=
  e <- read (fun s => pyerr (world s)) ;;
  update_world (with_pyerr None) ;;
  ret e.

(** [PyErr_Restore(etype, evalue, etb)] with a type that is not NULL. *)
Definition PyErr_Restore (e : PyErr) : M unit :=
  update_world (with_pyerr (Some e)).

(** Modelled from the spec: [conn_close_locked] is defined in
    connection.c, which is not part of the sources.  The spec's
    [forceClose] is destructive and connection-wide: the connection
    becomes unusable for any further operation. *)
Definition conn_close_locked : M unit :=
  log EvClose ;;
  update_world (with_conn conn_set_closed).

(** [PQclear(res)] frees the result. *)
Definition PQclear (res : PGresult) : M unit :=
  log (EvPQclear res).

(** ** The functions of green.c *)

(** [psyco_set_wait_callback(self, obj)] *)
Definition psyco_set_wait_callback (obj : PyObject) : M PyObject :=
  match obj with
  | Py_None => set_wait_callback None
  | _ => set_wait_callback (Some obj)
  end ;;
  ret Py_None.

(** [psyco_get_wait_callback(self, obj)] *)
Definition psyco_get_wait_callback : M PyObject :=
  cb <- read (@wait_callback Env) ;;
  match cb with
  | None => ret Py_None
  | Some f => ret f
  end.

(** [psyco_green()] *)
Definition psyco_green : M Z :=
  if PSYCOPG_EXTENSIONS then
    cb <- read (@wait_callback Env) ;;
    match cb with
    | Some _ => ret 1
    | None => ret 0
    end
  else ret 0.

(** [have_wait_callback()] *)
Definition have_wait_callback : M (option PyObject) :=
  cb <- read (@wait_callback Env) ;;
  match cb with
  | None =>
      PyErr_SetString OperationalError "wait callback not available" ;;
      ret None
  | Some f => ret (Some f)
  end.

(** [psyco_wait(conn)] *)
Definition psyco_wait : M Z :=
  log (Dprintf "psyco_wait") ;;
  cb <- have_wait_callback ;;
  match cb with
  | None => ret (-1)
  | Some f =>
      rv <- call_python (EvCallback f) (PyObject_CallFunctionObjArgs f) ;;
      match rv with
      | Some _ => ret 0
      | None =>
          log (Dprintf "psyco_wait: error in wait callback") ;;
          ret (-1)
      end
  end.

(** [psyco_panic_cancel(conn)], from the cancel request to the label
    [exit]. *)
Definition panic_cancel_steps : M unit :=
  log (Dprintf "panic_cancel: sending cancel request") ;;
  handle <- read (fun s => cancel (conn (world s))) ;;
  r <- call_world (EvPQcancel handle) (in_env (PQcancel handle)) ;;
  if fst r =? 0 then
    log (Dprintf ("panic_cancel: canceling failed: " ++ snd r)) ;;
    call_python (EvWarn (snd r)) (PyErr_WarnEx (snd r)) ;;
    ret tt
  else
    rc <- psyco_wait ;;
    if negb (rc =? 0) then
      log (Dprintf
        "panic_cancel: error after cancel: closing the connection") ;;
      call_python (EvWarn "async cancel failed: closing the connection")
        (PyErr_WarnEx "async cancel failed: closing the connection") ;;
      conn_close_locked
    else
      res <- call_world EvGetLastResult pq_get_last_result ;;
      match res with
      | Some r => PQclear r
      | None => ret tt
      end.

(** [psyco_panic_cancel(conn)] *)
Definition psyco_panic_cancel : M unit :=
  saved <- PyErr_Fetch ;;
  match saved with
  | None => log (Dprintf "panic_cancel: called without exception set")
  | Some _ => ret tt
  end ;;
  panic_cancel_steps ;;
  match saved with
  | Some e => PyErr_Restore e
  | None => ret tt
  end.

(** [psyco_exec_green(conn, command)], up to the label [end]: the
    value of [result] there. *)
Definition exec_green_steps (command : string) : M (option PGresult) :=
  cur <- read (fun s => async_cursor (conn (world s))) ;;
  match cur with
  | Some _ =>
      PyErr_SetString ProgrammingError
        "a single async query can be executed on the same connection" ;;
      ret None
  | None =>
      ref <- call_world EvNewRef PyWeakref_NewRef ;;
      set_async_cursor ref ;;
      match ref with
      | None => ret None
      | Some _ =>
          sent <- call_world (EvSendQuery command) (pq_send_query command) ;;
          if sent =? 0 then ret None
          else
            set_async_status ASYNC_WRITE ;;
            rc <- psyco_wait ;;
            if negb (rc =? 0) then
              psyco_panic_cancel ;;
              ret None
            else
              call_world EvGetLastResult pq_get_last_result
      end
  end.

(** [psyco_exec_green(conn, command)] *)
Definition psyco_exec_green (command : string) : M (option PGresult) :=
  result <- exec_green_steps command ;;
  set_async_status ASYNC_DONE ;;
  set_async_cursor None ;;
  ret result.

End Green.

(** ** A scripted platform

    Concrete collaborators, on which the functions above run by
    computation.  The outside world is the script of the coming calls of
    the wait callback, in order: [true] when the callback returns, and
    [false] when it raises. *)

Definition Script : Type := list bool.

Definition timeout_error : PyErr :=
  mkPyErr (PyExc "socket.timeout") "timed out" None.

Definition scripted_callback (cb : PyObject)
  (st : option PyObject * World Script)
  : option PyObject * (option PyObject * World Script) :=
  let w := snd st in
  match env w with
  | true :: rest =>
      (Some Py_None, (fst st, mkWorld (conn w) (pyerr w) rest))
  | false :: rest =>
      (None, (fst st, mkWorld (conn w) (Some timeout_error) rest))
  | [] =>
      (None, (fst st, mkWorld (conn w) (Some timeout_error) []))
  end.

Definition refused : string := "PQcancel() -- connect() failed".

Definition scripted (extensions send_ok cancel_ok warn_raises : bool)
  : Platform Script :=
  {| PSYCOPG_EXTENSIONS := extensions;
     PyWeakref_NewRef := fun w => (Some (PyObj 7), w);
     pq_send_query := fun _ w => (if send_ok then 1 else 0, w);
     pq_get_last_result := fun w => (Some (PGres 1), w);
     PQcancel := fun _ e =>
       (if cancel_ok then (1, EmptyString) else (0, refused), e);
     PyErr_WarnEx := fun msg st =>
       if warn_raises
       then (-1, (fst st,
                  mkWorld (conn (snd st))
                    (Some (mkPyErr (PyExc "RuntimeWarning") msg None))
                    (env (snd st))))
       else (0, st);
     PyObject_CallFunctionObjArgs := scripted_callback |}.

Definition memory_error : PyErr :=
  mkPyErr (PyExc "MemoryError") EmptyString None.

(** The scripted platform out of memory: no weak reference can be
    created. *)
Definition scripted_noref : Platform Script :=
  {| PSYCOPG_EXTENSIONS := true;
     PyWeakref_NewRef := fun w =>
       (None, mkWorld (conn w) (Some memory_error) (env w));
     pq_send_query := fun _ w => (1, w);
     pq_get_last_result := fun w => (Some (PGres 1), w);
     PQcancel := fun _ e => ((1, EmptyString), e);
     PyErr_WarnEx := fun _ st => (0, st);
     PyObject_CallFunctionObjArgs := scripted_callback |}.

(** The scripted platform with a warning hook that unregisters the wait
    callback. *)
Definition scripted_hook : Platform Script :=
  {| PSYCOPG_EXTENSIONS := true;
     PyWeakref_NewRef := fun w => (Some (PyObj 7), w);
     pq_send_query := fun _ w => (1, w);
     pq_get_last_result := fun w => (Some (PGres 1), w);
     PQcancel := fun _ e => ((0, refused), e);
     PyErr_WarnEx := fun _ st => (0, (None, snd st));
     PyObject_CallFunctionObjArgs := scripted_callback |}.

(** The command of the examples. *)
Definition query : string := "SELECT 1".

Definition idle_conn : connectionObject :=
  mkConn None ASYNC_DONE (PGcan 1) false.

Definition busy_conn : connectionObject :=
  mkConn (Some (PyObj 5)) ASYNC_WRITE (PGcan 1) false.

(** A connection in the middle of an execution: marker set, wait
    entered. *)
Definition inflight_conn : connectionObject :=
  mkConn (Some (PyObj 7)) ASYNC_WRITE (PGcan 1) false.

Definition start (cb : option PyObject) (c : connectionObject)
  (pending : option PyErr) (script : Script) : State Script :=
  mkState' cb (mkWorld c pending script) [].

(** ** States along an execution *)

Section Stages.

Context {Env : Type} {P : Platform Env}.

(** The cleanup at the label [end] of [psyco_exec_green]. *)
Definition cleanup (s : State Env) : State Env :=
  mkState' (wait_callback s)
    (with_conn (fun c => conn_set_cursor None (conn_set_status ASYNC_DONE c))
       (world s))
    (trace s).

(** The state in which [psyco_exec_green] enters its wait, when it
    started in [s] and [pq_send_query] left the world [w]. *)
Definition waiting (command : string) (s : State Env) (w : World Env)
  : State Env :=
  mkState' (wait_callback s)
    (with_conn (conn_set_status ASYNC_WRITE) w)
    (trace s ++ [EvNewRef; EvSendQuery command]).

(** One more line in the trace. *)
Definition logged (e : event) (s : State Env) : State Env :=
  mkState' (wait_callback s) (world s) (trace s ++ [e]).

(** The error indicator cleared by [PyErr_Fetch], and set again by
    [PyErr_Restore]. *)
Definition fetched (s : State Env) : State Env :=
  mkState' (wait_callback s) (with_pyerr None (world s)) (trace s).

Definition restored (e : PyErr) (s : State Env) : State Env :=
  mkState' (wait_callback s) (with_pyerr (Some e) (world s)) (trace s).

(** The state in which [psyco_panic_cancel] goes on after [PQcancel],
    when its steps began in [s] and [PQcancel] left the outside world
    [e]. *)
Definition cancel_sent (s : State Env) (e : Env) : State Env :=
  mkState' (wait_callback s)
    (mkWorld (conn (world s)) (pyerr (world s)) e)
    (trace s ++ [Dprintf "panic_cancel: sending cancel request";
                 EvPQcancel (cancel (conn (world s)))]).

(** The state after [PyErr_WarnEx(NULL, message, 1)]. *)
Definition warned (message : string) (s : State Env) : State Env :=
  mkState' (fst (snd (PyErr_WarnEx message (wait_callback s, world s))))
    (snd (snd (PyErr_WarnEx message (wait_callback s, world s))))
    (trace s ++ [EvWarn message]).

(** The state after [conn_close_locked]. *)
Definition closed_down (s : State Env) : State Env :=
  mkState' (wait_callback s) (with_conn conn_set_closed (world s))
    (trace s ++ [EvClose]).

End Stages.

(** ** Counting calls in a trace *)

Definition is_callback (e : event) : bool :=
  match e with EvCallback _ => true | _ => false end.

Definition is_cancel (e : event) : bool :=
  match e with EvPQcancel _ => true | _ => false end.

Definition is_send (e : event) : bool :=
  match e with EvSendQuery _ => true | _ => false end.

(** How many events of a trace satisfy [p]. *)
Definition calls (p : event -> bool) (tr : list event) : nat :=
  length (filter p tr).

(** From [s] to [s'] the trace only grows, by at most [nc] calls of the
    wait callback, [nk] cancel requests and [ns] sent commands. *)
Definition within {Env : Type} (nc nk ns : nat) (s s' : State Env) : Prop :=
  exists added,
    trace s' = trace s ++ added
    /\ (calls is_callback added <= nc)%nat
    /\ (calls is_cancel added <= nk)%nat
    /\ (calls is_send added <= ns)%nat.

(** ** Properties *)

Section Properties.

Context {Env : Type} {P : Platform Env}.

Implicit Types (s : State Env) (w : World Env) (command : string).

(** *** Running the monad *)

Lemma run_bind {A B} (c : M A) (k : A -> M B) s :
  runState (bind c k) s
  = runState (k (fst (runState c s))) (snd (runState c s)).
Proof. cbn. destruct (runState c s). reflexivity. Qed.

Lemma run_ret {A} (a : A) s : runState (ret a : M A) s = (a, s).
Proof. reflexivity. Qed.

Lemma run_call_world {A} (e : event) (f : World Env -> A * World Env) s :
  runState (call_world e f) s
  = (fst (f (world s)),
     mkState' (wait_callback s) (snd (f (world s))) (trace s ++ [e])).
Proof. reflexivity. Qed.

Lemma run_call_python {A} (e : event)
  (f : option PyObject * World Env -> A * (option PyObject * World Env)) s :
  runState (call_python e f) s
  = (fst (f (wait_callback s, world s)),
     mkState' (fst (snd (f (wait_callback s, world s))))
       (snd (snd (f (wait_callback s, world s)))) (trace s ++ [e])).
Proof. reflexivity. Qed.

(** One step of a sequence whose first action is a primitive. *)
Ltac run_step :=
  rewrite run_bind;
  cbn [runState fst snd read log update_world set_async_cursor
       set_async_status world wait_callback trace].

(** *** psyco_wait *)

Lemma psyco_wait_unavailable s :
  wait_callback s = None ->
  runState psyco_wait s
  = (-1, mkState' None (with_pyerr (Some CallbackUnavailable) (world s))
           (trace s ++ [Dprintf "psyco_wait"])).
Proof.
  intros H. unfold psyco_wait, have_wait_callback. cbn. rewrite H.
  reflexivity.
Qed.

Lemma psyco_wait_returned s cb rv cb' w' :
  wait_callback s = Some cb ->
  PyObject_CallFunctionObjArgs cb (Some cb, world s) = (Some rv, (cb', w')) ->
  runState psyco_wait s
  = (0, mkState' cb' w' (trace s ++ [Dprintf "psyco_wait"; EvCallback cb])).
Proof.
  intros H Hcall. unfold psyco_wait, have_wait_callback. cbn. rewrite H.
  cbn. rewrite Hcall. cbn. rewrite <- app_assoc. reflexivity.
Qed.

(** *** psyco_exec_green *)

Lemma exec_green_run command s :
  runState (psyco_exec_green command) s
  = (fst (runState (exec_green_steps command) s),
     cleanup (snd (runState (exec_green_steps command) s))).
Proof.
  unfold psyco_exec_green. rewrite run_bind. reflexivity.
Qed.

Lemma exec_green_steps_busy command s marker :
  async_cursor (conn (world s)) = Some marker ->
  runState (exec_green_steps command) s
  = (None, mkState' (wait_callback s)
             (with_pyerr (Some ConcurrentAsyncQuery) (world s)) (trace s)).
Proof.
  intros H. unfold exec_green_steps. cbn. rewrite H. reflexivity.
Qed.

(** The steps up to and including [pq_send_query], when the marker is
    free and the weak reference is created. *)
Lemma exec_green_steps_marked command s ref w1 :
  async_cursor (conn (world s)) = None ->
  PyWeakref_NewRef (world s) = (Some ref, w1) ->
  runState (exec_green_steps command) s
  = let r :=
      pq_send_query command (with_conn (conn_set_cursor (Some ref)) w1) in
    if fst r =? 0
    then (None, mkState' (wait_callback s) (snd r)
                  (trace s ++ [EvNewRef; EvSendQuery command]))
    else
      let r' := runState psyco_wait (waiting command s (snd r)) in
      if negb (fst r' =? 0)
      then (None, snd (runState psyco_panic_cancel (snd r')))
      else runState (call_world EvGetLastResult pq_get_last_result) (snd r').
Proof.
  intros H Href. unfold exec_green_steps.
  run_step. rewrite H.
  rewrite run_bind, run_call_world, Href. cbn [fst snd].
  run_step.
  rewrite run_bind, run_call_world. cbn [fst snd world trace wait_callback].
  rewrite <- app_assoc. cbn [app]. cbv zeta.
  destruct (fst (pq_send_query _ _) =? 0); [reflexivity |].
  run_step. fold (waiting command s
    (snd (pq_send_query command
            (with_conn (conn_set_cursor (Some ref)) w1)))).
  rewrite run_bind.
  destruct (fst (runState psyco_wait _) =? 0); cbn [negb].
  - reflexivity.
  - rewrite run_bind. reflexivity.
Qed.

Lemma exec_green_steps_noref command s w1 :
  async_cursor (conn (world s)) = None ->
  PyWeakref_NewRef (world s) = (None, w1) ->
  runState (exec_green_steps command) s
  = (None, mkState' (wait_callback s)
             (with_conn (conn_set_cursor None) w1) (trace s ++ [EvNewRef])).
Proof.
  intros H Href. unfold exec_green_steps.
  run_step. rewrite H.
  rewrite run_bind, run_call_world, Href. cbn [fst snd].
  run_step. reflexivity.
Qed.

Lemma exec_green_steps_send_failed command s ref w1 w2 :
  async_cursor (conn (world s)) = None ->
  PyWeakref_NewRef (world s) = (Some ref, w1) ->
  pq_send_query command (with_conn (conn_set_cursor (Some ref)) w1)
    = (0, w2) ->
  runState (exec_green_steps command) s
  = (None, mkState' (wait_callback s) w2
             (trace s ++ [EvNewRef; EvSendQuery command])).
Proof.
  intros H Href Hsend.
  rewrite (exec_green_steps_marked command s H Href), Hsend. reflexivity.
Qed.

Lemma exec_green_steps_sent command s ref w1 rv w2 :
  async_cursor (conn (world s)) = None ->
  PyWeakref_NewRef (world s) = (Some ref, w1) ->
  pq_send_query command (with_conn (conn_set_cursor (Some ref)) w1)
    = (rv, w2) ->
  rv <> 0 ->
  runState (exec_green_steps command) s
  = if negb (fst (runState psyco_wait (waiting command s w2)) =? 0)
    then (None, snd (runState psyco_panic_cancel
                       (snd (runState psyco_wait (waiting command s w2)))))
    else runState (call_world EvGetLastResult pq_get_last_result)
           (snd (runState psyco_wait (waiting command s w2))).
Proof.
  intros H Href Hsend Hrv.
  rewrite (exec_green_steps_marked command s H Href), Hsend.
  cbv zeta. cbn [fst snd].
  apply Z.eqb_neq in Hrv. rewrite Hrv. reflexivity.
Qed.

(** *** psyco_panic_cancel *)

Lemma panic_cancel_pending s e :
  pyerr (world s) = Some e ->
  runState psyco_panic_cancel s
  = (tt, restored e (snd (runState panic_cancel_steps (fetched s)))).
Proof.
  intros H. unfold psyco_panic_cancel.
  rewrite run_bind.
  change (runState PyErr_Fetch s) with (pyerr (world s), fetched s).
  cbn [fst snd]. rewrite H.
  rewrite run_bind, run_ret. cbn [fst snd].
  rewrite run_bind. reflexivity.
Qed.

Lemma panic_steps_start s :
  runState panic_cancel_steps s
  = let r := PQcancel (cancel (conn (world s))) (env (world s)) in
    let s1 := cancel_sent s (snd r) in
    if fst (fst r) =? 0 then
      (tt, warned (snd (fst r))
             (logged (Dprintf ("panic_cancel: canceling failed: "
                               ++ snd (fst r))) s1))
    else
      let r2 := runState psyco_wait s1 in
      if negb (fst r2 =? 0) then
        (tt, closed_down
               (warned "async cancel failed: closing the connection"
                  (logged (Dprintf
                     "panic_cancel: error after cancel: closing the connection")
                     (snd r2))))
      else
        runState
          (res <- call_world EvGetLastResult pq_get_last_result ;;
           match res with
           | Some r => PQclear r
           | None => ret tt
           end) (snd r2).
Proof.
  unfold panic_cancel_steps.
  rewrite run_bind.
  change (runState (log (Dprintf "panic_cancel: sending cancel request")) s)
    with (tt, logged (Dprintf "panic_cancel: sending cancel request") s).
  cbn [fst snd]. rewrite run_bind. cbn [read runState fst snd].
  rewrite run_bind, run_call_world.
  cbn [logged world wait_callback trace in_env fst snd conn env pyerr].
  rewrite <- app_assoc. cbn [app].
  set (r := PQcancel (cancel (conn (world s))) (env (world s))).
  fold (cancel_sent s (snd r)).
  destruct (fst (fst r) =? 0).
  - rewrite run_bind. cbn [log runState fst snd].
    rewrite run_bind, run_call_python. reflexivity.
  - rewrite run_bind.
    destruct (fst (runState psyco_wait _) =? 0); cbn [negb].
    + reflexivity.
    + rewrite run_bind. cbn [log runState fst snd].
      rewrite run_bind, run_call_python. reflexivity.
Qed.

(** *** The busy-marker guard *)

(** On a connection whose [async_cursor] is already set,
    [psyco_exec_green] returns NULL with the ConcurrentAsyncQuery error
    pending and takes none of the execution steps: nothing is added to
    the trace (no marker is created, no command sent, no wait, no
    cancel, no close), and the registered callback, the cancel handle,
    the closed flag and the outside world are as before. *)
Lemma exec_green_busy_rejected command s marker :
  async_cursor (conn (world s)) = Some marker ->
  let out := runState (psyco_exec_green command) s in
  fst out = None
  /\ pyerr (world (snd out)) = Some ConcurrentAsyncQuery
  /\ trace (snd out) = trace s
  /\ wait_callback (snd out) = wait_callback s
  /\ env (world (snd out)) = env (world s)
  /\ cancel (conn (world (snd out))) = cancel (conn (world s))
  /\ closed (conn (world (snd out))) = closed (conn (world s)).
Proof.
  intros H out. subst out.
  rewrite exec_green_run, (exec_green_steps_busy command s H).
  cbn. repeat split; reflexivity.
Qed.

(** *** No callback registered *)

(** C2, as the code has it.  When no wait callback is registered and
    the steps before the wait succeed (the marker is free, the weak
    reference is created, [pq_send_query] reports success), the command
    is sent first and the callback is looked up only afterwards, inside
    [psyco_wait]; the call then returns NULL with the
    CallbackUnavailable error pending. *)
Theorem exec_green_without_callback command s ref w1 rv w2 :
  wait_callback s = None ->
  async_cursor (conn (world s)) = None ->
  PyWeakref_NewRef (world s) = (Some ref, w1) ->
  pq_send_query command (with_conn (conn_set_cursor (Some ref)) w1)
    = (rv, w2) ->
  rv <> 0 ->
  let out := runState (psyco_exec_green command) s in
  fst out = None
  /\ pyerr (world (snd out)) = Some CallbackUnavailable
  /\ exists rest,
       trace (snd out)
       = trace s ++ [EvNewRef; EvSendQuery command; Dprintf "psyco_wait"]
           ++ rest.
Proof.
  intros Hcb Hcur Href Hsend Hrv out. subst out.
  rewrite exec_green_run,
    (exec_green_steps_sent command s Hcur Href Hsend Hrv).
  assert (Hw : wait_callback (waiting command s w2) = None) by exact Hcb.
  rewrite (psyco_wait_unavailable _ Hw). cbn [fst snd Z.eqb negb].
  set (s3 := mkState' None _ _).
  rewrite (panic_cancel_pending s3 (e := CallbackUnavailable) eq_refl).
  cbn [fst snd].
  rewrite panic_steps_start. cbv zeta.
  destruct (fst (fst (PQcancel _ _)) =? 0).
  - cbn. repeat split. eexists.
    rewrite <- !app_assoc. cbn [app]. reflexivity.
  - assert (Hw2 : forall e, wait_callback (cancel_sent (fetched s3) e) = None)
      by reflexivity.
    rewrite (psyco_wait_unavailable _ (Hw2 _)).
    cbn. repeat split. eexists.
    rewrite <- !app_assoc. cbn [app]. reflexivity.
Qed.

(** *** Cleanup on every exit *)

(** Whatever the collaborators do, [psyco_exec_green] returns through
    the label [end]. *)
Lemma exec_green_cleaned command s :
  let s' := snd (runState (psyco_exec_green command) s) in
  async_cursor (conn (world s')) = None
  /\ async_status (conn (world s')) = ASYNC_DONE.
Proof.
  cbv zeta. rewrite exec_green_run. split; reflexivity.
Qed.

(** C3.  [psyco_exec_green] entered on a connection whose
    [async_cursor] is NULL returns, with or without a result and
    whatever the collaborators did, with [async_cursor] NULL and
    [async_status] equal to [ASYNC_DONE]. *)
Theorem exec_green_leaves_idle command s :
  async_cursor (conn (world s)) = None ->
  let s' := snd (runState (psyco_exec_green command) s) in
  async_cursor (conn (world s')) = None
  /\ async_status (conn (world s')) = ASYNC_DONE.
Proof.
  intros _. apply exec_green_cleaned.
Qed.

(** *** The successful execution *)

(** C4.  With a callback registered, the marker free, the command sent
    and the wait callback returning normally, [psyco_exec_green] returns
    what [pq_get_last_result] fetches in the world the callback left,
    with [async_status] equal to [ASYNC_DONE]; send, wait and fetch
    happen in this order. *)
Theorem exec_green_success command s cb ref w1 rv w2 ret cb' w3 :
  wait_callback s = Some cb ->
  async_cursor (conn (world s)) = None ->
  PyWeakref_NewRef (world s) = (Some ref, w1) ->
  pq_send_query command (with_conn (conn_set_cursor (Some ref)) w1)
    = (rv, w2) ->
  rv <> 0 ->
  PyObject_CallFunctionObjArgs cb
    (Some cb, with_conn (conn_set_status ASYNC_WRITE) w2)
    = (Some ret, (cb', w3)) ->
  let out := runState (psyco_exec_green command) s in
  fst out = fst (pq_get_last_result w3)
  /\ async_status (conn (world (snd out))) = ASYNC_DONE
  /\ trace (snd out)
     = trace s ++ [EvNewRef; EvSendQuery command; Dprintf "psyco_wait";
                   EvCallback cb; EvGetLastResult].
Proof.
  intros Hcb Hcur Href Hsend Hrv Hcall out. subst out.
  rewrite exec_green_run,
    (exec_green_steps_sent command s Hcur Href Hsend Hrv).
  assert (Hw : wait_callback (waiting command s w2) = Some cb) by exact Hcb.
  rewrite (psyco_wait_returned _ Hw Hcall).
  cbn [fst snd Z.eqb negb]. rewrite run_call_world.
  cbn. repeat split. rewrite <- !app_assoc. reflexivity.
Qed.

(** *** The failed send *)

(** C5.  When [pq_send_query] returns 0, [psyco_exec_green] returns
    NULL with the error state exactly as [pq_send_query] left it; the
    trace ends with the send, so neither [psyco_wait] nor
    [psyco_panic_cancel] is entered, and [async_cursor] is cleared. *)
Theorem exec_green_send_failed command s ref w1 w2 :
  async_cursor (conn (world s)) = None ->
  PyWeakref_NewRef (world s) = (Some ref, w1) ->
  pq_send_query command (with_conn (conn_set_cursor (Some ref)) w1)
    = (0, w2) ->
  let out := runState (psyco_exec_green command) s in
  fst out = None
  /\ pyerr (world (snd out)) = pyerr w2
  /\ env (world (snd out)) = env w2
  /\ trace (snd out) = trace s ++ [EvNewRef; EvSendQuery command]
  /\ async_cursor (conn (world (snd out))) = None.
Proof.
  intros Hcur Href Hsend out. subst out.
  rewrite exec_green_run,
    (exec_green_steps_send_failed command s Hcur Href Hsend).
  cbn. repeat split; reflexivity.
Qed.

(** *** Cancel recovery *)

(** C6.  [psyco_panic_cancel] entered with an error pending returns
    with that same error pending, whatever happened in between: the
    cancel request could not be sent, the wait after it failed, or the
    wait after it succeeded.  What the warnings or the second wait left
    in the error indicator is overwritten by the restore at [exit]. *)
Theorem panic_cancel_keeps_error s e :
  pyerr (world s) = Some e ->
  pyerr (world (snd (runState psyco_panic_cancel s))) = Some e.
Proof.
  intros H. rewrite (panic_cancel_pending s H). reflexivity.
Qed.

(** C7.  In an execution of [psyco_exec_green] where the wait fails
    leaving the error [e] pending, [PQcancel] reports success and the
    wait entered after it fails too, the connection is closed by
    [conn_close_locked], the warning about the forced close is issued,
    and the call returns NULL with [e] pending. *)
Theorem exec_green_cancel_ack_failed
  command s ref w1 rv w2 rc s3 e crc buf e4 rc2 s5 :
  async_cursor (conn (world s)) = None ->
  PyWeakref_NewRef (world s) = (Some ref, w1) ->
  pq_send_query command (with_conn (conn_set_cursor (Some ref)) w1)
    = (rv, w2) ->
  rv <> 0 ->
  runState psyco_wait (waiting command s w2) = (rc, s3) ->
  rc <> 0 ->
  pyerr (world s3) = Some e ->
  PQcancel (cancel (conn (world s3))) (env (world s3)) = ((crc, buf), e4) ->
  crc <> 0 ->
  runState psyco_wait (cancel_sent (fetched s3) e4) = (rc2, s5) ->
  rc2 <> 0 ->
  let out := runState (psyco_exec_green command) s in
  fst out = None
  /\ closed (conn (world (snd out))) = true
  /\ In (EvWarn "async cancel failed: closing the connection")
       (trace (snd out))
  /\ In EvClose (trace (snd out))
  /\ pyerr (world (snd out)) = Some e.
Proof.
  intros Hcur Href Hsend Hrv Hwait Hrc He Hcancel Hcrc Hwait2 Hrc2 out.
  subst out.
  rewrite exec_green_run,
    (exec_green_steps_sent command s Hcur Href Hsend Hrv), Hwait.
  cbn [fst snd]. apply Z.eqb_neq in Hrc. rewrite Hrc. cbn [negb fst snd].
  rewrite (panic_cancel_pending s3 He). cbn [fst snd].
  rewrite panic_steps_start. cbv zeta.
  change (cancel (conn (world (fetched s3)))) with (cancel (conn (world s3))).
  change (env (world (fetched s3))) with (env (world s3)).
  rewrite Hcancel. cbn [fst snd].
  apply Z.eqb_neq in Hcrc. rewrite Hcrc.
  rewrite Hwait2. cbn [fst snd].
  apply Z.eqb_neq in Hrc2. rewrite Hrc2. cbn [negb].
  cbn. repeat split.
  - apply in_or_app. left. apply in_or_app. right. left. reflexivity.
  - apply in_or_app. right. left. reflexivity.
Qed.

(** C8.  When [PQcancel] returns 0, [psyco_panic_cancel] entered with
    the error [e] pending does exactly this: it sends the cancel
    request and issues one warning whose text is the content of the
    error buffer.  The trace shows no second wait and no call of
    [conn_close_locked]; the function itself writes nothing to the
    connection or to the callback slot, which are as the warning call
    left them, and [e] is pending on return. *)
Theorem panic_cancel_transport_failed s e buf e' :
  pyerr (world s) = Some e ->
  PQcancel (cancel (conn (world s))) (env (world s)) = ((0, buf), e') ->
  let left :=
    snd (PyErr_WarnEx buf
           (wait_callback s, mkWorld (conn (world s)) None e')) in
  let s' := snd (runState psyco_panic_cancel s) in
  trace s'
  = trace s ++ [Dprintf "panic_cancel: sending cancel request";
                EvPQcancel (cancel (conn (world s)));
                Dprintf ("panic_cancel: canceling failed: " ++ buf);
                EvWarn buf]
  /\ pyerr (world s') = Some e
  /\ conn (world s') = conn (snd left)
  /\ env (world s') = env (snd left)
  /\ wait_callback s' = fst left.
Proof.
  intros He Hcancel left s'. subst left s'.
  rewrite (panic_cancel_pending s He). cbn [fst snd].
  rewrite panic_steps_start. cbv zeta.
  change (cancel (conn (world (fetched s)))) with (cancel (conn (world s))).
  change (env (world (fetched s))) with (env (world s)).
  rewrite Hcancel. cbn. repeat split.
  rewrite <- !app_assoc. reflexivity.
Qed.

(** C10.  [psyco_panic_cancel] entered with no error pending logs the
    inconsistency and then is its recovery steps and nothing more: the
    restore at [exit] is skipped, so the error indicator on return is
    the one the recovery steps left. *)
Theorem panic_cancel_without_error s :
  pyerr (world s) = None ->
  runState psyco_panic_cancel s
  = runState panic_cancel_steps
      (logged (Dprintf "panic_cancel: called without exception set") s).
Proof.
  intros H. unfold psyco_panic_cancel.
  rewrite run_bind.
  change (runState PyErr_Fetch s) with (pyerr (world s), fetched s).
  cbn [fst snd]. rewrite H.
  assert (Hs : fetched s = s).
  { destruct s as [cb [c err e] tr]. cbn in H. subst err. reflexivity. }
  rewrite Hs, run_bind.
  set (line := Dprintf "panic_cancel: called without exception set").
  change (runState (log line) s) with (tt, logged line s).
  cbn [fst snd]. rewrite run_bind, run_ret.
  destruct (runState panic_cancel_steps _) as [[] s']. reflexivity.
Qed.

(** *** The callback registry *)

Lemma set_wait_callback_run (obj : PyObject) s :
  runState (psyco_set_wait_callback obj) s
  = (Py_None,
     mkState' match obj with Py_None => None | _ => Some obj end
       (world s) (trace s)).
Proof. destruct obj; reflexivity. Qed.

(** C9, as the code has it.  Registering None twice in a row leaves the
    state that registering it once leaves; and after
    [psyco_set_wait_callback(v)], [psyco_green()] is nonzero exactly
    when the build defines [PSYCOPG_EXTENSIONS] and [v] is not None. *)
Theorem set_wait_callback_green (v : PyObject) s :
  snd (runState (psyco_set_wait_callback Py_None ;;
                 psyco_set_wait_callback Py_None) s)
  = snd (runState (psyco_set_wait_callback Py_None) s)
  /\ (fst (runState psyco_green
             (snd (runState (psyco_set_wait_callback v) s))) <> 0
      <-> PSYCOPG_EXTENSIONS = true /\ v <> Py_None).
Proof.
  split.
  - reflexivity.
  - rewrite set_wait_callback_run. unfold psyco_green. cbn [snd].
    destruct PSYCOPG_EXTENSIONS; destruct v; cbn; split;
      try (intros [? ?]); try intros ?; try congruence;
      try (split; congruence).
Qed.

(** ** Further properties of green.c *)

(** *** The registry *)

Lemma get_wait_callback_run s :
  runState psyco_get_wait_callback s
  = (match wait_callback s with Some f => f | None => Py_None end, s).
Proof.
  unfold psyco_get_wait_callback. run_step.
  destruct (wait_callback s); reflexivity.
Qed.

(** X1.  [psyco_get_wait_callback] called after
    [psyco_set_wait_callback(v)] returns [v], for a callback as for
    None, and reading changes nothing. *)
Theorem get_after_set_wait_callback (v : PyObject) s :
  let s1 := snd (runState (psyco_set_wait_callback v) s) in
  runState psyco_get_wait_callback s1 = (v, s1).
Proof.
  cbv zeta. rewrite set_wait_callback_run, get_wait_callback_run.
  destruct v; reflexivity.
Qed.

(** X2.  Of two registrations in a row only the second one counts. *)
Theorem set_wait_callback_last_wins (u v : PyObject) s :
  runState (psyco_set_wait_callback u ;; psyco_set_wait_callback v) s
  = runState (psyco_set_wait_callback v) s.
Proof.
  rewrite run_bind, !set_wait_callback_run. reflexivity.
Qed.

(** *** psyco_wait *)

Lemma psyco_wait_raised s cb cb' w' :
  wait_callback s = Some cb ->
  PyObject_CallFunctionObjArgs cb (Some cb, world s) = (None, (cb', w')) ->
  runState psyco_wait s
  = (-1, mkState' cb' w'
           (trace s ++ [Dprintf "psyco_wait"; EvCallback cb;
                        Dprintf "psyco_wait: error in wait callback"])).
Proof.
  intros H Hcall. unfold psyco_wait, have_wait_callback. cbn. rewrite H.
  cbn. rewrite Hcall. cbn. rewrite <- !app_assoc. reflexivity.
Qed.

(** X3.  With no callback registered [psyco_wait] returns -1 with
    OperationalError (wait callback not available) pending; it calls
    nothing, and the connection, the outside world and the empty slot
    are as before. *)
Theorem psyco_wait_no_callback s :
  wait_callback s = None ->
  let out := runState psyco_wait s in
  fst out = -1
  /\ pyerr (world (snd out))
     = Some (mkPyErr OperationalError "wait callback not available" None)
  /\ conn (world (snd out)) = conn (world s)
  /\ env (world (snd out)) = env (world s)
  /\ wait_callback (snd out) = None
  /\ trace (snd out) = trace s ++ [Dprintf "psyco_wait"].
Proof.
  intros H out. subst out. rewrite (psyco_wait_unavailable s H).
  cbn. repeat split; reflexivity.
Qed.

(** X4.  [psyco_wait] returns 0 or -1, and 0 exactly when a callback is
    registered and its call on the connection returns an object. *)
Theorem psyco_wait_code s :
  let rc := fst (runState psyco_wait s) in
  (rc = 0 \/ rc = -1)
  /\ (rc = 0 <->
      exists cb,
        wait_callback s = Some cb
        /\ fst (PyObject_CallFunctionObjArgs cb (Some cb, world s)) <> None).
Proof.
  cbv zeta. destruct (wait_callback s) as [cb |] eqn:Hcb.
  - destruct (PyObject_CallFunctionObjArgs cb (Some cb, world s))
      as [[rv |] [cb' w']] eqn:Hcall.
    + rewrite (psyco_wait_returned s Hcb Hcall). cbn [fst]. split.
      * left. reflexivity.
      * split; [| reflexivity]. intros _. exists cb. rewrite Hcall.
        split; [reflexivity | discriminate].
    + rewrite (psyco_wait_raised s Hcb Hcall). cbn [fst]. split.
      * right. reflexivity.
      * split; [discriminate |]. intros (cb0 & Heq & Hnot).
        injection Heq as <-. rewrite Hcall in Hnot. now elim Hnot.
  - rewrite (psyco_wait_unavailable s Hcb). cbn [fst]. split.
    + right. reflexivity.
    + split; [discriminate |]. intros (cb0 & Heq & _). discriminate Heq.
Qed.

(** X5.  When the call of the callback returns NULL, [psyco_wait]
    returns -1 and hands on the state exactly as the callback left it:
    the error indicator is neither replaced nor cleared. *)
Theorem psyco_wait_callback_failed s cb cb' w' :
  wait_callback s = Some cb ->
  PyObject_CallFunctionObjArgs cb (Some cb, world s) = (None, (cb', w')) ->
  let out := runState psyco_wait s in
  fst out = -1
  /\ world (snd out) = w'
  /\ wait_callback (snd out) = cb'
  /\ trace (snd out)
     = trace s ++ [Dprintf "psyco_wait"; EvCallback cb;
                   Dprintf "psyco_wait: error in wait callback"].
Proof.
  intros H Hcall out. subst out. rewrite (psyco_wait_raised s H Hcall).
  repeat split; reflexivity.
Qed.

(** X6.  The callback that [psyco_wait] calls is the last one
    registered: right after [psyco_set_wait_callback(v)] with [v] not
    None, [psyco_wait] calls [v], once, on the world as it is. *)
Theorem wait_calls_registered (v : PyObject) s :
  v <> Py_None ->
  let r := PyObject_CallFunctionObjArgs v (Some v, world s) in
  let out := runState (psyco_set_wait_callback v ;; psyco_wait) s in
  fst out = match fst r with Some _ => 0 | None => -1 end
  /\ world (snd out) = snd (snd r)
  /\ calls is_callback (trace (snd out))
     = S (calls is_callback (trace s))
  /\ In (EvCallback v) (trace (snd out)).
Proof.
  intros Hv r out. subst out.
  rewrite run_bind, set_wait_callback_run. cbn [fst snd].
  destruct v as [| id]; [now elim Hv |].
  set (s1 := mkState' (Some (PyObj id)) (world s) (trace s)).
  assert (Hcb : wait_callback s1 = Some (PyObj id)) by reflexivity.
  subst r. change (world s) with (world s1).
  destruct (PyObject_CallFunctionObjArgs (PyObj id)
              (Some (PyObj id), world s1)) as [[rv |] [cb' w']] eqn:Hcall.
  - rewrite (psyco_wait_returned s1 Hcb Hcall). cbn [fst snd world trace].
    repeat split.
    + unfold calls. rewrite filter_app, length_app. cbn. lia.
    + apply in_or_app. right. right. left. reflexivity.
  - rewrite (psyco_wait_raised s1 Hcb Hcall). cbn [fst snd world trace].
    repeat split.
    + unfold calls. rewrite filter_app, length_app. cbn. lia.
    + apply in_or_app. right. right. left. reflexivity.
Qed.

(** *** psyco_exec_green, the remaining paths *)

(** X7.  When the weak reference cannot be created,
    [psyco_exec_green] returns NULL with the error state as
    [PyWeakref_NewRef] left it; nothing is sent, and the connection is
    left idle. *)
Theorem exec_green_marker_failed command s w1 :
  async_cursor (conn (world s)) = None ->
  PyWeakref_NewRef (world s) = (None, w1) ->
  let out := runState (psyco_exec_green command) s in
  fst out = None
  /\ pyerr (world (snd out)) = pyerr w1
  /\ env (world (snd out)) = env w1
  /\ trace (snd out) = trace s ++ [EvNewRef]
  /\ async_cursor (conn (world (snd out))) = None
  /\ async_status (conn (world (snd out))) = ASYNC_DONE.
Proof.
  intros Hcur Href out. subst out.
  rewrite exec_green_run, (exec_green_steps_noref command s Hcur Href).
  cbn. repeat split; reflexivity.
Qed.

(** X8.  When the cancel request is sent and the wait after it
    succeeds, [psyco_panic_cancel] fetches the result of the cancelled
    command and frees it if there is one; it issues no warning and does
    not close the connection, and the error that was pending on entry
    is pending on return. *)
Theorem panic_cancel_drained s e crc buf e' s2 :
  pyerr (world s) = Some e ->
  PQcancel (cancel (conn (world s))) (env (world s)) = ((crc, buf), e') ->
  crc <> 0 ->
  runState psyco_wait (cancel_sent (fetched s) e') = (0, s2) ->
  let r := pq_get_last_result (world s2) in
  let s' := snd (runState psyco_panic_cancel s) in
  pyerr (world s') = Some e
  /\ conn (world s') = conn (snd r)
  /\ env (world s') = env (snd r)
  /\ wait_callback s' = wait_callback s2
  /\ trace s'
     = trace s2 ++ EvGetLastResult ::
         match fst r with Some res => [EvPQclear res] | None => [] end.
Proof.
  intros He Hcancel Hcrc Hwait r s'. subst r s'.
  rewrite (panic_cancel_pending s He). cbn [fst snd].
  rewrite panic_steps_start. cbv zeta.
  change (cancel (conn (world (fetched s)))) with (cancel (conn (world s))).
  change (env (world (fetched s))) with (env (world s)).
  rewrite Hcancel. cbn [fst snd].
  apply Z.eqb_neq in Hcrc. rewrite Hcrc, Hwait. cbn [fst snd Z.eqb negb].
  rewrite run_bind, run_call_world. cbn [fst snd].
  destruct (fst (pq_get_last_result (world s2))) as [res |].
  - cbn. repeat split. rewrite <- app_assoc. reflexivity.
  - cbn. repeat split.
Qed.

(** X10.  When the wait of [psyco_exec_green] fails leaving an error
    pending, the call returns NULL with that error pending, whichever
    way the recovery goes. *)
Theorem exec_green_wait_failed command s ref w1 rv w2 rc s3 e :
  async_cursor (conn (world s)) = None ->
  PyWeakref_NewRef (world s) = (Some ref, w1) ->
  pq_send_query command (with_conn (conn_set_cursor (Some ref)) w1)
    = (rv, w2) ->
  rv <> 0 ->
  runState psyco_wait (waiting command s w2) = (rc, s3) ->
  rc <> 0 ->
  pyerr (world s3) = Some e ->
  let out := runState (psyco_exec_green command) s in
  fst out = None /\ pyerr (world (snd out)) = Some e.
Proof.
  intros Hcur Href Hsend Hrv Hwait Hrc He out. subst out.
  rewrite exec_green_run,
    (exec_green_steps_sent command s Hcur Href Hsend Hrv), Hwait.
  cbn [fst snd]. apply Z.eqb_neq in Hrc. rewrite Hrc. cbn [negb fst snd].
  rewrite (panic_cancel_pending s3 He). split; reflexivity.
Qed.

(** X11.  An execution started with no callback registered costs the
    connection when the cancel request goes through: the command is
    sent, both waits fail for want of a callback, and
    [conn_close_locked] is called.  No callback is ever called, and the
    error on return is CallbackUnavailable. *)
Theorem exec_green_without_callback_closes
  command s ref w1 rv w2 crc buf e4 :
  wait_callback s = None ->
  async_cursor (conn (world s)) = None ->
  PyWeakref_NewRef (world s) = (Some ref, w1) ->
  pq_send_query command (with_conn (conn_set_cursor (Some ref)) w1)
    = (rv, w2) ->
  rv <> 0 ->
  PQcancel (cancel (conn w2)) (env w2) = ((crc, buf), e4) ->
  crc <> 0 ->
  let out := runState (psyco_exec_green command) s in
  fst out = None
  /\ closed (conn (world (snd out))) = true
  /\ pyerr (world (snd out)) = Some CallbackUnavailable
  /\ trace (snd out)
     = trace s ++ [EvNewRef; EvSendQuery command; Dprintf "psyco_wait";
                   Dprintf "panic_cancel: sending cancel request";
                   EvPQcancel (cancel (conn w2)); Dprintf "psyco_wait";
                   Dprintf
                     "panic_cancel: error after cancel: closing the connection";
                   EvWarn "async cancel failed: closing the connection";
                   EvClose].
Proof.
  intros Hcb Hcur Href Hsend Hrv Hcancel Hcrc out. subst out.
  rewrite exec_green_run,
    (exec_green_steps_sent command s Hcur Href Hsend Hrv).
  assert (Hw : wait_callback (waiting command s w2) = None) by exact Hcb.
  rewrite (psyco_wait_unavailable _ Hw). cbn [fst snd Z.eqb negb].
  set (s3 := mkState' None _ _).
  rewrite (panic_cancel_pending s3 (e := CallbackUnavailable) eq_refl).
  cbn [fst snd]. rewrite panic_steps_start. cbv zeta.
  change (cancel (conn (world (fetched s3)))) with (cancel (conn w2)).
  change (env (world (fetched s3))) with (env w2).
  rewrite Hcancel. cbn [fst snd].
  apply Z.eqb_neq in Hcrc. rewrite Hcrc.
  assert (Hw2 : wait_callback (cancel_sent (fetched s3) e4) = None)
    by reflexivity.
  rewrite (psyco_wait_unavailable _ Hw2).
  cbn. repeat split. rewrite <- !app_assoc. reflexivity.
Qed.

(** X9.  [psyco_exec_green] returns a result only at the end of the
    successful path: the marker was free, a callback was registered,
    and the trace is marker, send, one call of that callback, fetch. *)
Theorem exec_green_result_only_after_wait command s res :
  fst (runState (psyco_exec_green command) s) = Some res ->
  async_cursor (conn (world s)) = None
  /\ exists cb,
       wait_callback s = Some cb
       /\ trace (snd (runState (psyco_exec_green command) s))
          = trace s ++ [EvNewRef; EvSendQuery command; Dprintf "psyco_wait";
                        EvCallback cb; EvGetLastResult].
Proof.
  rewrite exec_green_run. cbn [fst snd].
  destruct (async_cursor (conn (world s))) as [marker |] eqn:Hcur.
  { rewrite (exec_green_steps_busy command s Hcur). discriminate. }
  destruct (PyWeakref_NewRef (world s)) as [[ref |] w1] eqn:Href.
  2:{ rewrite (exec_green_steps_noref command s Hcur Href). discriminate. }
  destruct (pq_send_query command
              (with_conn (conn_set_cursor (Some ref)) w1))
    as [rv w2] eqn:Hsend.
  destruct (Z.eq_dec rv 0) as [-> | Hrv].
  { rewrite (exec_green_steps_send_failed command s Hcur Href Hsend).
    discriminate. }
  rewrite (exec_green_steps_sent command s Hcur Href Hsend Hrv).
  destruct (wait_callback s) as [cb |] eqn:Hcb.
  2:{ assert (Hw : wait_callback (waiting command s w2) = None)
        by exact Hcb.
      rewrite (psyco_wait_unavailable _ Hw). discriminate. }
  assert (Hw : wait_callback (waiting command s w2) = Some cb) by exact Hcb.
  destruct (PyObject_CallFunctionObjArgs cb
              (Some cb, world (waiting command s w2)))
    as [[rv' |] [cb' w3]] eqn:Hcall.
  2:{ rewrite (psyco_wait_raised _ Hw Hcall). discriminate. }
  rewrite (psyco_wait_returned _ Hw Hcall). cbn [fst snd Z.eqb negb].
  rewrite run_call_world. intros _. split; [reflexivity |].
  exists cb. split; [reflexivity |].
  cbn. rewrite <- !app_assoc. reflexivity.
Qed.

(** *** Bounded recovery *)

Lemma calls_app p (l1 l2 : list event) :
  calls p (l1 ++ l2) = (calls p l1 + calls p l2)%nat.
Proof. unfold calls. rewrite filter_app, length_app. reflexivity. Qed.

Lemma within_added (l : list event) s s' :
  trace s' = trace s ++ l ->
  within (calls is_callback l) (calls is_cancel l) (calls is_send l) s s'.
Proof. intros H. exists l. repeat split; [exact H | lia | lia | lia]. Qed.

Lemma within_trans nc nk ns nc' nk' ns' s s' s'' :
  within nc nk ns s s' -> within nc' nk' ns' s' s'' ->
  within (nc + nc') (nk + nk') (ns + ns') s s''.
Proof.
  intros (l & Hl & Hc & Hk & Hs) (l' & Hl' & Hc' & Hk' & Hs').
  exists (l ++ l'). rewrite Hl', Hl, app_assoc, !calls_app.
  repeat split; lia.
Qed.

Lemma within_weaken nc nk ns nc' nk' ns' s s' :
  within nc nk ns s s' ->
  (nc <= nc')%nat -> (nk <= nk')%nat -> (ns <= ns')%nat ->
  within nc' nk' ns' s s'.
Proof.
  intros (l & Hl & Hc & Hk & Hs) ? ? ?. exists l. repeat split;
    [exact Hl | lia | lia | lia].
Qed.

(** A step whose added events are explicit. *)
Ltac within_explicit l :=
  eapply within_weaken;
  [ apply (within_added l); cbn [trace logged warned closed_down cancel_sent
                                 fetched restored waiting cleanup fst snd];
    rewrite <- ?app_assoc; reflexivity
  | cbn; lia | cbn; lia | cbn; lia ].

Lemma psyco_wait_within s :
  within 1 0 0 s (snd (runState psyco_wait s)).
Proof.
  destruct (wait_callback s) as [cb |] eqn:Hcb.
  - destruct (PyObject_CallFunctionObjArgs cb (Some cb, world s))
      as [[rv |] [cb' w']] eqn:Hcall.
    + rewrite (psyco_wait_returned s Hcb Hcall).
      within_explicit [Dprintf "psyco_wait"; EvCallback cb].
    + rewrite (psyco_wait_raised s Hcb Hcall).
      within_explicit [Dprintf "psyco_wait"; EvCallback cb;
                       Dprintf "psyco_wait: error in wait callback"].
  - rewrite (psyco_wait_unavailable s Hcb).
    within_explicit [Dprintf "psyco_wait"].
Qed.

(** After the cancel request, the recovery adds at most one call of the
    callback and no further cancel request. *)
Lemma panic_steps_after_cancel s :
  within 1 0 0
    (cancel_sent s (snd (PQcancel (cancel (conn (world s))) (env (world s)))))
    (snd (runState panic_cancel_steps s)).
Proof.
  rewrite panic_steps_start. cbv zeta.
  set (r := PQcancel (cancel (conn (world s))) (env (world s))).
  destruct (fst (fst r) =? 0).
  - cbn [snd].
    within_explicit
      [Dprintf ("panic_cancel: canceling failed: " ++ snd (fst r));
       EvWarn (snd (fst r))].
  - pose proof (psyco_wait_within (cancel_sent s (snd r))) as H2.
    set (s2 := snd (runState psyco_wait (cancel_sent s (snd r)))) in *.
    destruct (fst (runState psyco_wait _) =? 0); cbn [negb snd].
    + rewrite run_bind, run_call_world. cbn [fst snd].
      apply (within_trans H2 (nc' := 0) (nk' := 0) (ns' := 0)).
      destruct (fst (pq_get_last_result (world s2))) as [res |].
      * cbn [PQclear log runState snd].
        within_explicit [EvGetLastResult; EvPQclear res].
      * rewrite run_ret. cbn [snd].
        within_explicit [EvGetLastResult].
    + apply (within_trans H2 (nc' := 0) (nk' := 0) (ns' := 0)).
      within_explicit
        [Dprintf "panic_cancel: error after cancel: closing the connection";
         EvWarn "async cancel failed: closing the connection"; EvClose].
Qed.

Lemma panic_steps_within s :
  within 1 1 0 s (snd (runState panic_cancel_steps s)).
Proof.
  set (r := PQcancel (cancel (conn (world s))) (env (world s))).
  assert (H1 : within 0 1 0 s (cancel_sent s (snd r))).
  { within_explicit [Dprintf "panic_cancel: sending cancel request";
                     EvPQcancel (cancel (conn (world s)))]. }
  apply (within_trans H1 (panic_steps_after_cancel s)).
Qed.

Lemma panic_cancel_run s :
  runState psyco_panic_cancel s
  = (tt,
     match pyerr (world s) with
     | Some e => restored e (snd (runState panic_cancel_steps (fetched s)))
     | None =>
         snd (runState panic_cancel_steps
                (logged (Dprintf "panic_cancel: called without exception set")
                   (fetched s)))
     end).
Proof.
  destruct (pyerr (world s)) as [e |] eqn:He.
  - apply (panic_cancel_pending s He).
  - unfold psyco_panic_cancel. rewrite run_bind.
    change (runState PyErr_Fetch s) with (pyerr (world s), fetched s).
    cbn [fst snd]. rewrite He. run_step. rewrite run_bind, run_ret.
    destruct (runState panic_cancel_steps _) as [[] s']. reflexivity.
Qed.

Lemma panic_cancel_within s :
  within 1 1 0 s (snd (runState psyco_panic_cancel s)).
Proof.
  rewrite panic_cancel_run. cbn [snd].
  destruct (pyerr (world s)) as [e |].
  - destruct (panic_steps_within (fetched s)) as (l & Hl & Hb).
    exists l. split; [exact Hl | exact Hb].
  - set (line := Dprintf "panic_cancel: called without exception set").
    assert (H1 : within 0 0 0 s (logged line (fetched s))).
    { within_explicit [line]. }
    apply (within_trans H1 (panic_steps_within _)).
Qed.

Lemma exec_green_within command s :
  within 2 1 1 s (snd (runState (psyco_exec_green command) s)).
Proof.
  rewrite exec_green_run. cbn [snd].
  assert (Hclean : forall s1, within 2 1 1 s s1 -> within 2 1 1 s (cleanup s1)).
  { intros s1 (l & Hl & Hb). exists l. split; [exact Hl | exact Hb]. }
  apply Hclean.
  destruct (async_cursor (conn (world s))) as [marker |] eqn:Hcur.
  { rewrite (exec_green_steps_busy command s Hcur).
    exists []. cbn. rewrite app_nil_r. repeat split; lia. }
  destruct (PyWeakref_NewRef (world s)) as [[ref |] w1] eqn:Href.
  2:{ rewrite (exec_green_steps_noref command s Hcur Href).
      within_explicit [EvNewRef]. }
  destruct (pq_send_query command
              (with_conn (conn_set_cursor (Some ref)) w1))
    as [rv w2] eqn:Hsend.
  destruct (Z.eq_dec rv 0) as [-> | Hrv].
  { rewrite (exec_green_steps_send_failed command s Hcur Href Hsend).
    within_explicit [EvNewRef; EvSendQuery command]. }
  rewrite (exec_green_steps_sent command s Hcur Href Hsend Hrv).
  assert (H1 : within 0 0 1 s (waiting command s w2)).
  { within_explicit [EvNewRef; EvSendQuery command]. }
  pose proof (within_trans H1 (psyco_wait_within _)) as H2.
  cbn [Nat.add] in H2.
  destruct (fst (runState psyco_wait _) =? 0); cbn [negb snd].
  - rewrite run_call_world. cbn [snd].
    eapply within_weaken;
      [ apply (within_trans H2 (nc' := 0) (nk' := 0) (ns' := 0))
      | lia | lia | lia ].
    within_explicit [EvGetLastResult].
  - apply (within_trans H2 (panic_cancel_within _)).
Qed.

(** X12.  One call of [psyco_exec_green] sends at most one command,
    issues at most one cancel request and calls the wait callback at
    most twice, whatever the collaborators answer: the recovery is one
    bounded round and never a retry loop. *)
Theorem exec_green_bounded command s :
  let s' := snd (runState (psyco_exec_green command) s) in
  (calls is_send (trace s') <= calls is_send (trace s) + 1)%nat
  /\ (calls is_cancel (trace s') <= calls is_cancel (trace s) + 1)%nat
  /\ (calls is_callback (trace s') <= calls is_callback (trace s) + 2)%nat.
Proof.
  cbv zeta.
  destruct (exec_green_within command s) as (l & Hl & Hc & Hk & Hs).
  rewrite Hl, !calls_app. lia.
Qed.

(** X13.  Every call of [psyco_panic_cancel] issues exactly one cancel
    request, on the cancel handle of the connection, and calls the wait
    callback at most once; it sends no command. *)
Theorem panic_cancel_one_request s :
  let s' := snd (runState psyco_panic_cancel s) in
  calls is_cancel (trace s') = S (calls is_cancel (trace s))
  /\ In (EvPQcancel (cancel (conn (world s)))) (trace s')
  /\ (calls is_callback (trace s') <= calls is_callback (trace s) + 1)%nat
  /\ calls is_send (trace s') = calls is_send (trace s).
Proof.
  cbv zeta. rewrite panic_cancel_run. cbn [snd].
  assert (Hsteps : forall s0,
    cancel (conn (world s0)) = cancel (conn (world s)) ->
    calls is_cancel (trace s0) = calls is_cancel (trace s) ->
    calls is_callback (trace s0) = calls is_callback (trace s) ->
    calls is_send (trace s0) = calls is_send (trace s) ->
    let t := trace (snd (runState panic_cancel_steps s0)) in
    calls is_cancel t = S (calls is_cancel (trace s))
    /\ In (EvPQcancel (cancel (conn (world s)))) t
    /\ (calls is_callback t <= calls is_callback (trace s) + 1)%nat
    /\ calls is_send t = calls is_send (trace s)).
  { intros s0 Hh Hk Hc Hs. cbv zeta.
    destruct (panic_steps_after_cancel s0) as (l & Hl & Hlc & Hlk & Hls).
    rewrite Hl. cbn [cancel_sent trace]. rewrite Hh, !calls_app, Hk, Hc, Hs.
    cbn [calls filter is_cancel is_callback is_send length]. repeat split.
    - lia.
    - apply in_or_app. left. apply in_or_app. right. right. left.
      reflexivity.
    - lia.
    - lia. }
  destruct (pyerr (world s)) as [e |].
  - apply (Hsteps (fetched s)); reflexivity.
  - apply Hsteps; cbn [logged fetched trace world conn with_pyerr];
      try reflexivity; rewrite calls_app; cbn; lia.
Qed.

End Properties.

(** ** The properties on the scripted platform *)

(** The code does not keep C1: a call on a busy connection (marker
    set, a query being written) comes back with the marker cleared and
    the status reset. *)
Lemma exec_green_busy_clears_marker :
  let s0 := start None busy_conn None [] in
  let out :=
    runState (psyco_exec_green (P := scripted true true true false) query)
      s0 in
  ~ (async_cursor (conn (world s0)) = Some (PyObj 5) ->
     pyerr (world (snd out)) = Some ConcurrentAsyncQuery
     /\ async_status (conn (world (snd out)))
        = async_status (conn (world s0))
     /\ async_cursor (conn (world (snd out)))
        = async_cursor (conn (world s0))).
Proof.
  cbv zeta. intros H. destruct (H eq_refl) as (_ & Hstatus & _).
  vm_compute in Hstatus. discriminate Hstatus.
Qed.

(** C1.  The code at the failing input.  A query is in flight on the
    connection: the marker is set and the status is [ASYNC_WRITE].  A
    call of [psyco_exec_green] is rejected with ConcurrentAsyncQuery
    and does nothing else, but it leaves through the cleanup at [end]:
    the marker of the query in flight is cleared and the status reset
    to [ASYNC_DONE].  The guard no longer sees that query, and the next
    call sends its command on the busy connection. *)
Lemma exec_green_busy_defeats_guard :
  let s0 := start (Some (PyObj 3)) busy_conn None [true] in
  let first :=
    runState (psyco_exec_green (P := scripted true true true false) query)
      s0 in
  let second :=
    runState (psyco_exec_green (P := scripted true true true false) query)
      (snd first) in
  async_cursor (conn (world s0)) = Some (PyObj 5)
  /\ async_status (conn (world s0)) = ASYNC_WRITE
  /\ fst first = None
  /\ pyerr (world (snd first)) = Some ConcurrentAsyncQuery
  /\ trace (snd first) = []
  /\ async_cursor (conn (world (snd first))) = None
  /\ async_status (conn (world (snd first))) = ASYNC_DONE
  /\ trace (snd second)
     = [EvNewRef; EvSendQuery query; Dprintf "psyco_wait";
        EvCallback (PyObj 3); EvGetLastResult].
Proof.
  cbv zeta. repeat split; reflexivity.
Qed.

(** C2 as stated fails: with no callback registered the command is
    sent all the same. *)
Lemma exec_green_sends_before_lookup :
  let s0 := start None idle_conn None [] in
  let out :=
    runState (psyco_exec_green (P := scripted true true true false) query)
      s0 in
  ~ (wait_callback s0 = None ->
     pyerr (world (snd out)) = Some CallbackUnavailable
     /\ forall c, ~ In (EvSendQuery c) (trace (snd out))).
Proof.
  cbv zeta. intros H. destruct (H eq_refl) as [_ Hsent].
  apply (Hsent query). vm_compute. right. left. reflexivity.
Qed.

Lemma exec_green_without_callback_witness :
  let s0 := start None idle_conn None [] in
  let out :=
    runState (psyco_exec_green (P := scripted true true true false) query)
      s0 in
  wait_callback s0 = None
  /\ async_cursor (conn (world s0)) = None
  /\ fst out = None
  /\ pyerr (world (snd out)) = Some CallbackUnavailable
  /\ exists rest,
       trace (snd out)
       = trace s0 ++ [EvNewRef; EvSendQuery query; Dprintf "psyco_wait"]
           ++ rest.
Proof.
  cbv zeta. split; [reflexivity |]. split; [reflexivity |].
  apply (@exec_green_without_callback Script
           (scripted true true true false) query
           (start None idle_conn None []) (PyObj 7)
           (world (start None idle_conn None [])) 1
           (with_conn (conn_set_cursor (Some (PyObj 7)))
              (world (start None idle_conn None []))));
    try reflexivity.
  lia.
Defined.

Lemma exec_green_leaves_idle_witness :
  let s0 := start (Some (PyObj 3)) idle_conn None [false; true] in
  let s' :=
    snd (runState
           (psyco_exec_green (P := scripted true true true false) query)
           s0) in
  async_cursor (conn (world s0)) = None
  /\ async_cursor (conn (world s')) = None
  /\ async_status (conn (world s')) = ASYNC_DONE.
Proof.
  cbv zeta. split; [reflexivity |].
  apply (@exec_green_leaves_idle Script (scripted true true true false)
           query (start (Some (PyObj 3)) idle_conn None [false; true])).
  reflexivity.
Defined.

Lemma exec_green_success_witness :
  let s0 := start (Some (PyObj 3)) idle_conn None [true] in
  let out :=
    runState (psyco_exec_green (P := scripted true true true false) query)
      s0 in
  wait_callback s0 = Some (PyObj 3)
  /\ async_cursor (conn (world s0)) = None
  /\ fst out = Some (PGres 1)
  /\ async_status (conn (world (snd out))) = ASYNC_DONE
  /\ trace (snd out)
     = trace s0 ++ [EvNewRef; EvSendQuery query; Dprintf "psyco_wait";
                    EvCallback (PyObj 3); EvGetLastResult].
Proof.
  cbv zeta. split; [reflexivity |]. split; [reflexivity |].
  apply (@exec_green_success Script (scripted true true true false) query
           (start (Some (PyObj 3)) idle_conn None [true]) (PyObj 3)
           (PyObj 7)
           (world (start (Some (PyObj 3)) idle_conn None [true])) 1
           (with_conn (conn_set_cursor (Some (PyObj 7)))
              (world (start (Some (PyObj 3)) idle_conn None [true])))
           Py_None (Some (PyObj 3))
           (mkWorld (mkConn (Some (PyObj 7)) ASYNC_WRITE (PGcan 1) false)
              None []));
    try reflexivity.
  lia.
Defined.

Lemma exec_green_send_failed_witness :
  let s0 := start (Some (PyObj 3)) idle_conn None [true] in
  let out :=
    runState (psyco_exec_green (P := scripted true false true false) query)
      s0 in
  async_cursor (conn (world s0)) = None
  /\ fst out = None
  /\ pyerr (world (snd out)) = None
  /\ env (world (snd out)) = [true]
  /\ trace (snd out) = trace s0 ++ [EvNewRef; EvSendQuery query]
  /\ async_cursor (conn (world (snd out))) = None.
Proof.
  cbv zeta. split; [reflexivity |].
  apply (@exec_green_send_failed Script (scripted true false true false)
           query (start (Some (PyObj 3)) idle_conn None [true]) (PyObj 7)
           (world (start (Some (PyObj 3)) idle_conn None [true]))
           (with_conn (conn_set_cursor (Some (PyObj 7)))
              (world (start (Some (PyObj 3)) idle_conn None [true]))));
    reflexivity.
Defined.

Lemma panic_cancel_keeps_error_witness :
  let s0 :=
    start (Some (PyObj 3)) inflight_conn (Some timeout_error) [false] in
  let s' :=
    snd (runState (psyco_panic_cancel (P := scripted true true true true))
           s0) in
  pyerr (world s0) = Some timeout_error
  /\ pyerr (world s') = Some timeout_error.
Proof.
  cbv zeta. split; [reflexivity |].
  apply (@panic_cancel_keeps_error Script (scripted true true true true)
           (start (Some (PyObj 3)) inflight_conn (Some timeout_error)
              [false])
           timeout_error).
  reflexivity.
Defined.

Lemma exec_green_cancel_ack_failed_witness :
  let s0 := start (Some (PyObj 3)) idle_conn None [false; false] in
  let out :=
    runState (psyco_exec_green (P := scripted true true true false) query)
      s0 in
  async_cursor (conn (world s0)) = None
  /\ fst out = None
  /\ closed (conn (world (snd out))) = true
  /\ In (EvWarn "async cancel failed: closing the connection")
       (trace (snd out))
  /\ In EvClose (trace (snd out))
  /\ pyerr (world (snd out)) = Some timeout_error.
Proof.
  cbv zeta. split; [reflexivity |].
  eapply (@exec_green_cancel_ack_failed Script
            (scripted true true true false) query
            (start (Some (PyObj 3)) idle_conn None [false; false])
            (PyObj 7)
            (world (start (Some (PyObj 3)) idle_conn None [false; false]))
            1
            (with_conn (conn_set_cursor (Some (PyObj 7)))
               (world
                  (start (Some (PyObj 3)) idle_conn None [false; false])))
            (-1)
            (mkState' (Some (PyObj 3))
               (mkWorld inflight_conn (Some timeout_error) [false])
               [EvNewRef; EvSendQuery query; Dprintf "psyco_wait";
                EvCallback (PyObj 3);
                Dprintf "psyco_wait: error in wait callback"])
            timeout_error 1 EmptyString [false] (-1)
            (mkState' (Some (PyObj 3))
               (mkWorld inflight_conn (Some timeout_error) [])
               [EvNewRef; EvSendQuery query; Dprintf "psyco_wait";
                EvCallback (PyObj 3);
                Dprintf "psyco_wait: error in wait callback";
                Dprintf "panic_cancel: sending cancel request";
                EvPQcancel (PGcan 1); Dprintf "psyco_wait";
                EvCallback (PyObj 3);
                Dprintf "psyco_wait: error in wait callback"]));
    try reflexivity; lia.
Defined.

Lemma panic_cancel_transport_failed_witness :
  let s0 :=
    start (Some (PyObj 3)) inflight_conn (Some timeout_error) [true] in
  let s' := snd (runState (psyco_panic_cancel (P := scripted_hook)) s0) in
  pyerr (world s0) = Some timeout_error
  /\ trace s'
     = trace s0 ++ [Dprintf "panic_cancel: sending cancel request";
                    EvPQcancel (PGcan 1);
                    Dprintf ("panic_cancel: canceling failed: " ++ refused);
                    EvWarn refused]
  /\ pyerr (world s') = Some timeout_error
  /\ conn (world s') = inflight_conn
  /\ env (world s') = [true]
  /\ wait_callback s' = None.
Proof.
  cbv zeta. split; [reflexivity |].
  apply (@panic_cancel_transport_failed Script scripted_hook
           (start (Some (PyObj 3)) inflight_conn (Some timeout_error)
              [true])
           timeout_error refused [true]);
    reflexivity.
Defined.

(** With no error pending and warnings raised as exceptions, the
    exception of the warning is the one pending on return. *)
Lemma panic_cancel_without_error_witness :
  let s0 := start (Some (PyObj 3)) inflight_conn None [true] in
  let out :=
    runState (psyco_panic_cancel (P := scripted true true false true)) s0 in
  pyerr (world s0) = None
  /\ out
     = runState (panic_cancel_steps (P := scripted true true false true))
         (logged (Dprintf "panic_cancel: called without exception set") s0)
  /\ pyerr (world (snd out))
     = Some (mkPyErr (PyExc "RuntimeWarning") refused None).
Proof.
  cbv zeta. split; [reflexivity |]. split.
  - apply (@panic_cancel_without_error Script
             (scripted true true false true)
             (start (Some (PyObj 3)) inflight_conn None [true])).
    reflexivity.
  - reflexivity.
Defined.

(** C9 as stated fails in a build without [PSYCOPG_EXTENSIONS]: a
    callback is registered and [psyco_green()] is 0. *)
Lemma green_off_without_extensions :
  let s0 := start None idle_conn None [] in
  let v := PyObj 3 in
  ~ (fst (runState (psyco_green (P := scripted false true true false))
            (snd (runState (psyco_set_wait_callback v) s0))) <> 0
     <-> v <> Py_None).
Proof.
  cbv zeta. intros [_ H]. apply H; [discriminate | reflexivity].
Qed.

Lemma set_wait_callback_green_witness :
  let s0 := start (Some (PyObj 3)) idle_conn None [] in
  snd (runState (psyco_set_wait_callback Py_None ;;
                 psyco_set_wait_callback Py_None) s0)
  = snd (runState (psyco_set_wait_callback Py_None) s0)
  /\ (fst (runState (psyco_green (P := scripted true true true false))
             (snd (runState (psyco_set_wait_callback (PyObj 4)) s0))) <> 0
      <-> true = true /\ PyObj 4 <> Py_None).
Proof.
  cbv zeta.
  exact (@set_wait_callback_green Script (scripted true true true false)
           (PyObj 4) (start (Some (PyObj 3)) idle_conn None [])).
Defined.

(** ** The further properties on the scripted platform *)

Lemma psyco_wait_no_callback_witness :
  let s0 := start None inflight_conn None [true] in
  let out := runState (psyco_wait (P := scripted true true true false)) s0 in
  wait_callback s0 = None
  /\ fst out = -1
  /\ pyerr (world (snd out))
     = Some (mkPyErr OperationalError "wait callback not available" None)
  /\ conn (world (snd out)) = conn (world s0)
  /\ env (world (snd out)) = env (world s0)
  /\ wait_callback (snd out) = None
  /\ trace (snd out) = trace s0 ++ [Dprintf "psyco_wait"].
Proof.
  cbv zeta. split; [reflexivity |].
  apply (@psyco_wait_no_callback Script (scripted true true true false)
           (start None inflight_conn None [true])).
  reflexivity.
Defined.

Lemma psyco_wait_callback_failed_witness :
  let s0 := start (Some (PyObj 3)) inflight_conn None [false] in
  let out := runState (psyco_wait (P := scripted true true true false)) s0 in
  wait_callback s0 = Some (PyObj 3)
  /\ fst out = -1
  /\ world (snd out) = mkWorld inflight_conn (Some timeout_error) []
  /\ wait_callback (snd out) = Some (PyObj 3)
  /\ trace (snd out)
     = trace s0 ++ [Dprintf "psyco_wait"; EvCallback (PyObj 3);
                    Dprintf "psyco_wait: error in wait callback"].
Proof.
  cbv zeta. split; [reflexivity |].
  apply (@psyco_wait_callback_failed Script (scripted true true true false)
           (start (Some (PyObj 3)) inflight_conn None [false]) (PyObj 3)
           (Some (PyObj 3))
           (mkWorld inflight_conn (Some timeout_error) []));
    reflexivity.
Defined.

Lemma wait_calls_registered_witness :
  let s0 := start (Some (PyObj 3)) inflight_conn None [true] in
  let out :=
    runState (psyco_set_wait_callback (PyObj 4) ;;
              psyco_wait (P := scripted true true true false)) s0 in
  PyObj 4 <> Py_None
  /\ fst out = 0
  /\ world (snd out) = mkWorld inflight_conn None []
  /\ calls is_callback (trace (snd out)) = S (calls is_callback (trace s0))
  /\ In (EvCallback (PyObj 4)) (trace (snd out)).
Proof.
  cbv zeta. split; [discriminate |].
  apply (@wait_calls_registered Script (scripted true true true false)
           (PyObj 4) (start (Some (PyObj 3)) inflight_conn None [true])).
  discriminate.
Defined.

Lemma exec_green_marker_failed_witness :
  let s0 := start (Some (PyObj 3)) idle_conn None [true] in
  let out := runState (psyco_exec_green (P := scripted_noref) query) s0 in
  async_cursor (conn (world s0)) = None
  /\ fst out = None
  /\ pyerr (world (snd out)) = Some memory_error
  /\ env (world (snd out)) = [true]
  /\ trace (snd out) = trace s0 ++ [EvNewRef]
  /\ async_cursor (conn (world (snd out))) = None
  /\ async_status (conn (world (snd out))) = ASYNC_DONE.
Proof.
  cbv zeta. split; [reflexivity |].
  apply (@exec_green_marker_failed Script scripted_noref query
           (start (Some (PyObj 3)) idle_conn None [true])
           (mkWorld idle_conn (Some memory_error) [true]));
    reflexivity.
Defined.

Lemma panic_cancel_drained_witness :
  let s0 :=
    start (Some (PyObj 3)) inflight_conn (Some timeout_error) [true] in
  let s' :=
    snd (runState (psyco_panic_cancel (P := scripted true true true false))
           s0) in
  pyerr (world s0) = Some timeout_error
  /\ pyerr (world s') = Some timeout_error
  /\ conn (world s') = inflight_conn
  /\ env (world s') = []
  /\ wait_callback s' = Some (PyObj 3)
  /\ trace s'
     = [Dprintf "panic_cancel: sending cancel request";
        EvPQcancel (PGcan 1); Dprintf "psyco_wait"; EvCallback (PyObj 3);
        EvGetLastResult; EvPQclear (PGres 1)].
Proof.
  cbv zeta. split; [reflexivity |].
  apply (@panic_cancel_drained Script (scripted true true true false)
           (start (Some (PyObj 3)) inflight_conn (Some timeout_error)
              [true])
           timeout_error 1 EmptyString [true]
           (mkState' (Some (PyObj 3)) (mkWorld inflight_conn None [])
              [Dprintf "panic_cancel: sending cancel request";
               EvPQcancel (PGcan 1); Dprintf "psyco_wait";
               EvCallback (PyObj 3)]));
    try reflexivity.
  lia.
Defined.

Lemma exec_green_result_only_after_wait_witness :
  let s0 := start (Some (PyObj 3)) idle_conn None [true] in
  let out :=
    runState (psyco_exec_green (P := scripted true true true false) query)
      s0 in
  fst out = Some (PGres 1)
  /\ async_cursor (conn (world s0)) = None
  /\ exists cb,
       wait_callback s0 = Some cb
       /\ trace (snd out)
          = trace s0 ++ [EvNewRef; EvSendQuery query; Dprintf "psyco_wait";
                         EvCallback cb; EvGetLastResult].
Proof.
  cbv zeta. split; [reflexivity |].
  apply (@exec_green_result_only_after_wait Script
           (scripted true true true false) query
           (start (Some (PyObj 3)) idle_conn None [true]) (PGres 1)).
  reflexivity.
Defined.

Lemma exec_green_wait_failed_witness :
  let s0 := start (Some (PyObj 3)) idle_conn None [false; true] in
  let out :=
    runState (psyco_exec_green (P := scripted true true true false) query)
      s0 in
  async_cursor (conn (world s0)) = None
  /\ fst out = None
  /\ pyerr (world (snd out)) = Some timeout_error.
Proof.
  cbv zeta. split; [reflexivity |].
  apply (@exec_green_wait_failed Script (scripted true true true false)
           query (start (Some (PyObj 3)) idle_conn None [false; true])
           (PyObj 7)
           (world (start (Some (PyObj 3)) idle_conn None [false; true])) 1
           (with_conn (conn_set_cursor (Some (PyObj 7)))
              (world (start (Some (PyObj 3)) idle_conn None [false; true])))
           (-1)
           (mkState' (Some (PyObj 3))
              (mkWorld inflight_conn (Some timeout_error) [true])
              [EvNewRef; EvSendQuery query; Dprintf "psyco_wait";
               EvCallback (PyObj 3);
               Dprintf "psyco_wait: error in wait callback"])
           timeout_error);
    try reflexivity; lia.
Defined.

Lemma exec_green_without_callback_closes_witness :
  let s0 := start None idle_conn None [] in
  let out :=
    runState (psyco_exec_green (P := scripted true true true false) query)
      s0 in
  wait_callback s0 = None
  /\ async_cursor (conn (world s0)) = None
  /\ fst out = None
  /\ closed (conn (world (snd out))) = true
  /\ pyerr (world (snd out)) = Some CallbackUnavailable
  /\ trace (snd out)
     = trace s0 ++ [EvNewRef; EvSendQuery query; Dprintf "psyco_wait";
                    Dprintf "panic_cancel: sending cancel request";
                    EvPQcancel (PGcan 1); Dprintf "psyco_wait";
                    Dprintf
                     "panic_cancel: error after cancel: closing the connection";
                    EvWarn "async cancel failed: closing the connection";
                    EvClose].
Proof.
  cbv zeta. split; [reflexivity |]. split; [reflexivity |].
  apply (@exec_green_without_callback_closes Script
           (scripted true true true false) query
           (start None idle_conn None []) (PyObj 7)
           (world (start None idle_conn None [])) 1
           (with_conn (conn_set_cursor (Some (PyObj 7)))
              (world (start None idle_conn None [])))
           1 EmptyString []);
    try reflexivity; lia.
Defined.
